(** * node-api-mock: the customer collection, its factory and its routes

    A shallow embedding of [src/utils/customerFactory.js] ([generate],
    [validate]) and of the customer routes of [src/app.js] (GET, POST, PUT
    and DELETE on [/customers], with [changeOrDelete]).

    Conventions of the embedding.
    - JavaScript values of a request are [JsVal]: the primitives, and
      [JObj] for any array or nested object.  The code only ever tests such
      a value for truthiness, compares it with [===] against a primitive
      or reads its text form, so [JObj] carries that text form.  An object
      whose conversion to text itself raises (its [toString] and [valueOf]
      overwritten by values that cannot be called) is not represented.
    - Numbers are [number]: the integers and the three special values
      [NaN], [+Infinity], [-Infinity].  On safe integers (magnitude below
      2^53) the arithmetic below is the one of IEEE doubles; fractions and
      the negative zero are not represented, and [parseFloat_str] only
      reads the integer literals.
    - The module-level array [customerExamples] is the [store] component of
      the state; [app.js] and [customerFactory.js] both [require] the same
      JSON module, hence share one array.
    - [new Date().toISOString()] is an explicit argument (the text read off
      the clock at that point). *)

From Stdlib Require Import ZArith Ascii String DecimalString DecimalZ.
From stdpp Require Import base decidable option list gmap strings.

Local Open Scope string_scope.
Local Open Scope Z_scope.

(** ** Numbers *)

Inductive number : Type :=
  | NaN
  | PosInf
  | NegInf
  | Fin (z : Z).

#[global] Instance number_eq_dec : EqDecision number.
Proof. solve_decision. Defined.

(** [Number.isFinite]. *)
Definition is_finite (n : number) : bool :=
  match n with Fin _ => true | _ => false end.

(** [Number.isSafeInteger]: the range where [+ 1] is exact on doubles. *)
Definition is_safe_integer (n : number) : bool :=
  match n with
  | Fin z => (- (2 ^ 53) <? z) && (z <? 2 ^ 53)
  | _ => false
  end.

(** The [+] of two numbers. *)
Definition num_add (a b : number) : number :=
  match a, b with
  | NaN, _ | _, NaN => NaN
  | PosInf, NegInf | NegInf, PosInf => NaN
  | PosInf, _ | _, PosInf => PosInf
  | NegInf, _ | _, NegInf => NegInf
  | Fin x, Fin y => Fin (x + y)
  end.

(** The order [<] on numbers; every comparison with [NaN] is false. *)
Definition num_ltb (a b : number) : bool :=
  match a, b with
  | NaN, _ | _, NaN => false
  | _, NegInf => false
  | NegInf, _ => true
  | PosInf, _ => false
  | _, PosInf => true
  | Fin x, Fin y => x <? y
  end.

(** One step of [Math.max]: a [NaN] argument makes the result [NaN],
    otherwise the larger one is kept. *)
Definition num_max (acc x : number) : number :=
  match acc, x with
  | NaN, _ | _, NaN => NaN
  | _, _ => if num_ltb acc x then x else acc
  end.

(** [Math.max(...xs)]: starts from [-Infinity], which is the result for
    no argument at all. *)
Definition math_max (xs : list number) : number :=
  fold_left num_max xs NegInf.

(** [Number.prototype.toString] (radix 10). *)
Definition toString (n : number) : string :=
  match n with
  | NaN => "NaN"
  | PosInf => "Infinity"
  | NegInf => "-Infinity"
  | Fin z => NilZero.string_of_int (Z.to_int z)
  end.

(** ** Reading a number off a text ([parseFloat]) *)

Definition is_digit (a : ascii) : bool :=
  let n := nat_of_ascii a in (48 <=? n)%nat && (n <=? 57)%nat.

(** The white space of ASCII: tab, line feed, vertical tab, form feed,
    carriage return and space. *)
Definition is_white (a : ascii) : bool :=
  let n := nat_of_ascii a in
  ((9 <=? n)%nat && (n <=? 13)%nat) || (n =? 32)%nat.

Fixpoint skip_white (s : string) : string :=
  match s with
  | String a r => if is_white a then skip_white r else s
  | EmptyString => EmptyString
  end.

(** The longest run of digits at the front of [s], and what follows it. *)
Fixpoint span_digits (s : string) : string * string :=
  match s with
  | String a r =>
      if is_digit a
      then let '(d, t) := span_digits r in (String a d, t)
      else (EmptyString, s)
  | EmptyString => (EmptyString, EmptyString)
  end.

(** [s] without its first [n] characters. *)
Fixpoint drop_chars (n : nat) (s : string) : string :=
  match n, s with
  | S m, String _ r => drop_chars m r
  | _, _ => s
  end.

(** An unsigned literal at the front of [s]: [Infinity] or a run of
    digits, with what follows it.  No digit at all is no number. *)
Definition read_unsigned (s : string) : number * string :=
  if String.prefix "Infinity" s then (PosInf, drop_chars 8 s)
  else
    let '(d, t) := span_digits s in
    match NilZero.uint_of_string d with
    | Some u => (Fin (Z.of_uint u), t)
    | None => (NaN, s)
    end.

Definition num_neg (n : number) : number :=
  match n with
  | NaN => NaN
  | PosInf => NegInf
  | NegInf => PosInf
  | Fin z => Fin (- z)
  end.

(** A literal with its optional sign, and what follows it. *)
Definition read_signed (s : string) : number * string :=
  match s with
  | String "-" r => let '(n, t) := read_unsigned r in (num_neg n, t)
  | String "+" r => read_unsigned r
  | _ => read_unsigned s
  end.

(** [parseFloat] on a text: leading white space is skipped, then an
    optional sign and the longest literal are read; what follows the
    literal is ignored. *)
Definition parseFloat_str (s : string) : number :=
  (read_signed (skip_white s)).1.

(** [Number(text)]: white space is dropped at both ends, the empty
    text is 0, and the whole of what is left has to be one (decimal
    integer or [Infinity]) literal. *)
Definition toNumber_str (s : string) : number :=
  let t := skip_white s in
  if String.eqb t "" then Fin 0
  else
    let '(n, r) := read_signed t in
    if String.eqb (skip_white r) "" then n else NaN.

(** ** Values of a request *)

Inductive JsVal : Type :=
  | JUndefined
  | JNull
  | JBool (b : bool)
  | JNum (n : number)
  | JStr (s : string)
  | JObj (text : string).

#[global] Instance JsVal_eq_dec : EqDecision JsVal.
Proof. solve_decision. Defined.

(** [ToBoolean]: what [!v], [v || w] and [if (v)] look at. *)
Definition truthy (v : JsVal) : bool :=
  match v with
  | JUndefined | JNull => false
  | JBool b => b
  | JNum NaN => false
  | JNum (Fin z) => negb (z =? 0)
  | JNum _ => true
  | JStr s => negb (String.eqb s "")
  | JObj _ => true
  end.

(** [a || b]. *)
Definition js_or (a b : JsVal) : JsVal := if truthy a then a else b.

(** [ToString]. *)
Definition to_text (v : JsVal) : string :=
  match v with
  | JUndefined => "undefined"
  | JNull => "null"
  | JBool true => "true"
  | JBool false => "false"
  | JNum n => toString n
  | JStr s => s
  | JObj t => t
  end.

(** The global [parseFloat]: its argument is first turned into text. *)
Definition parseFloat (v : JsVal) : number := parseFloat_str (to_text v).

(** [text === v] where the left side is a text: true only for a text
    with the same characters, no conversion takes place. *)
Definition text_strict_eq (t : string) (v : JsVal) : bool :=
  match v with
  | JStr s => String.eqb t s
  | _ => false
  end.

(** [n === v] where the left side is a number: true only for a number.
    [NaN] equals nothing, itself included. *)
Definition num_strict_eq (n : number) (v : JsVal) : bool :=
  match n, v with
  | NaN, _ => false
  | _, JNum m => bool_decide (n = m)
  | _, _ => false
  end.

(** [ToNumber]. *)
Definition toNumber (v : JsVal) : number :=
  match v with
  | JUndefined => NaN
  | JNull => Fin 0
  | JBool true => Fin 1
  | JBool false => Fin 0
  | JNum n => n
  | JStr s => toNumber_str s
  | JObj t => toNumber_str t
  end.

(** ** Arrays *)

(** [l.indexOf(x)] from position [i] on: the first position holding [x],
    or -1.  The elements are records; the one searched for below is
    itself an element of the array. *)
Fixpoint indexOf_from {A} `{EqDecision A} (i : Z) (x : A) (l : list A) : Z :=
  match l with
  | [] => -1
  | y :: r => if decide (y = x) then i else indexOf_from (i + 1) x r
  end.

Definition indexOf {A} `{EqDecision A} (x : A) (l : list A) : Z :=
  indexOf_from 0 x l.

(** A relative position of [splice] and [slice] brought into
    [0 .. len]: a negative one counts from the end. *)
Definition clamp_index (len : nat) (rel : number) : nat :=
  match rel with
  | NaN => 0%nat
  | NegInf => 0%nat
  | PosInf => len
  | Fin z =>
      if z <? 0 then Z.to_nat (Z.max (Z.of_nat len + z) 0)
      else Z.to_nat (Z.min z (Z.of_nat len))
  end.

(** [l.splice(start, deleteCount, ...items)], as the array it leaves. *)
Definition splice {A} (start deleteCount : Z) (items : list A) (l : list A)
  : list A :=
  let len := length l in
  let from := clamp_index len (Fin start) in
  let del := Z.to_nat (Z.min (Z.max deleteCount 0) (Z.of_nat (len - from))) in
  take from l ++ items ++ drop (from + del) l.

(** [l.slice(0, end)]; an [undefined] end means the whole array. *)
Definition slice0 {A} (end_ : JsVal) (l : list A) : list A :=
  match end_ with
  | JUndefined => l
  | _ => take (clamp_index (length l) (toNumber end_)) l
  end.

(** ** Customers and requests *)

(** The [Customer] typedef.  [id] is a number; [generate] stores whatever
    truthy value the payload holds in the other fields, so they are
    values rather than texts. *)
Record Customer : Type := {
  id : number;
  name : JsVal;
  address : JsVal;
  phone : JsVal;
  email : JsVal;
  lastupdate : JsVal;
  country : JsVal;
  active : JsVal;
  contact : JsVal
}.

#[global] Instance Customer_eq_dec : EqDecision Customer.
Proof. solve_decision. Defined.

(** An object read by property name: [req.body], [req.query]. *)
Abbreviation Obj := (gmap string JsVal).

(** [o.k]: a missing property reads as [undefined]. *)
Definition prop (o : Obj) (k : string) : JsVal := default JUndefined (o !! k).

(** What the handlers use of the request.  [None] is an [undefined]
    [req.body] or [req.query]; with [express.json()] installed
    (app.js, line 57) the body of a request is always an object. *)
Record Req : Type := {
  body : option Obj;
  query : option Obj
}.

(** The second argument of [validate]: ['body'] or ['query']. *)
Inductive SourceKey : Type := SrcBody | SrcQuery.

(** [req[type]]. *)
Definition source (req : Req) (type : SourceKey) : option Obj :=
  match type with SrcBody => body req | SrcQuery => query req end.

(** What a handler can raise: a [TypeError] of the runtime (a property
    read or written on [undefined]) or a text thrown by the code. *)
Inductive Exn : Type :=
  | TypeError
  | Thrown (msg : string).

Inductive Res (A : Type) : Type :=
  | Ok (a : A)
  | Raise (e : Exn).
Arguments Ok {A} a.
Arguments Raise {A} e.

(** The two texts [changeOrDelete] throws: the record was not found, the
    input was missing. *)
Definition RecordNotFound : Exn := Thrown "ID was not found!".
Definition MissingInput : Exn := Thrown "Body was not sent!".

(** What a call leaves behind: its outcome (the value it returns or
    sends, or what it raised), the array [customerExamples] and the
    request object. *)
Record Outcome (A : Type) : Type := {
  result : Res A;
  store : list Customer;
  request : Req
}.
Arguments result {A} o.
Arguments store {A} o.
Arguments request {A} o.

(** ** customerFactory.js *)

(** [req.body.id = v]. *)
Definition set_body_id (req : Req) (b : Obj) (v : JsVal) : Req :=
  {| body := Some (<["id" := v]> b); query := query req |}.

(** The object literal [generate] returns, read off the body. *)
Definition customer_of (b : Obj) (now : string) : Customer :=
  {| id := parseFloat (prop b "id");
     name := js_or (prop b "name") (JStr "No Name");
     address := js_or (prop b "address") (JStr "No Address");
     phone := js_or (prop b "phone") (JStr "No Phone");
     email := js_or (prop b "email") (JStr "No Email");
     lastupdate := js_or (prop b "lastupdate") (JStr now);
     country := js_or (prop b "country") (JStr "No Country");
     active := js_or (prop b "active") (JBool true);
     contact := js_or (prop b "contact") (JStr "No Contact") |}.

(** [generate(req, keepID)].  [req.body.id] is assigned before the
    record is built; the array is only read.  Reading or writing a
    property of an [undefined] body or query is a [TypeError], raised
    before anything is written. *)
Definition generate (customerExamples : list Customer) (req : Req)
    (keepID : bool) (now : string) : Outcome Customer :=
  match body req with
  | None =>
      {| result := Raise TypeError;
         store := customerExamples; request := req |}
  | Some b =>
      let assigned : option JsVal :=
        if negb keepID then
          Some (JNum (num_add (math_max (map id customerExamples)) (Fin 1)))
        else if truthy (prop b "id") then Some (prop b "id")
        else (fun q : Obj => prop q "id") <$> query req in
      match assigned with
      | None =>
          {| result := Raise TypeError;
             store := customerExamples; request := req |}
      | Some v =>
          {| result := Ok (customer_of (<["id" := v]> b) now);
             store := customerExamples;
             request := set_body_id req b v |}
      end
  end.

(** [validate(req, type)]: the index of the customer, or -1. *)
Definition validate (customerExamples : list Customer) (req : Req)
    (type : SourceKey) : Z :=
  match source req type with
  | None => -1
  | Some o =>
      if negb (truthy (prop o "id")) then -1
      else
        let search :=
          List.filter (fun f => text_strict_eq (toString (id f)) (prop o "id"))
                      customerExamples in
        match head search with
        | Some c => indexOf c customerExamples
        | None => -1
        end
  end.

(** ** app.js *)

(** [customerEdit.lastupdate = t]. *)
Definition set_lastupdate (c : Customer) (t : string) : Customer :=
  {| id := id c; name := name c; address := address c; phone := phone c;
     email := email c; lastupdate := JStr t; country := country c;
     active := active c; contact := contact c |}.

(** [changeOrDelete(req, res, update)].  [t_gen] is the time [generate]
    reads, [t_edit] the one read right after it. *)
Definition changeOrDelete (customerExamples : list Customer) (req : Req)
    (update : bool) (t_gen t_edit : string) : Outcome Customer :=
  if (update && bool_decide (is_Some (body req)))
     || (negb update && bool_decide (is_Some (query req)))
  then
    let validate := validate customerExamples req
                      (if update then SrcBody else SrcQuery) in
    if validate =? -1 then
      {| result := Raise RecordNotFound;
         store := customerExamples; request := req |}
    else
      let g := generate customerExamples req true t_gen in
      match result g with
      | Raise e => {| result := Raise e; store := store g; request := request g |}
      | Ok c =>
          let customerEdit := set_lastupdate c t_edit in
          {| result := Ok customerEdit;
             store := if update
                      then splice validate 1 [customerEdit] (store g)
                      else splice validate 1 [] (store g);
             request := request g |}
      end
  else
    {| result := Raise MissingInput;
       store := customerExamples; request := req |}.

(** [app.get('/customers')]. *)
Definition get_customers (customerExamples : list Customer) (req : Req)
  : Outcome (list Customer) :=
  match query req with
  | None =>
      {| result := Raise TypeError;
         store := customerExamples; request := req |}
  | Some q =>
      let result1 :=
        if truthy (prop q "id")
        then List.filter (fun f => num_strict_eq (id f) (prop q "id"))
                         customerExamples
        else customerExamples in
      let result2 :=
        if truthy (prop q "qty") then slice0 (prop q "qty") result1
        else result1 in
      {| result := Ok result2; store := customerExamples; request := req |}
  end.

(** [app.post('/customers')]: [generate(req)] with [keepID] at its
    default, then [push]. *)
Definition post_customers (customerExamples : list Customer) (req : Req)
    (now : string) : Outcome Customer :=
  let g := generate customerExamples req false now in
  match result g with
  | Raise e => {| result := Raise e; store := store g; request := request g |}
  | Ok customerNew =>
      {| result := Ok customerNew;
         store := store g ++ [customerNew]; request := request g |}
  end.

(** [app.put('/customers')] and [app.delete('/customers')]. *)
Definition put_customers (customerExamples : list Customer) (req : Req)
    (t_gen t_edit : string) : Outcome Customer :=
  changeOrDelete customerExamples req true t_gen t_edit.

Definition delete_customers (customerExamples : list Customer) (req : Req)
    (t_gen t_edit : string) : Outcome Customer :=
  changeOrDelete customerExamples req false t_gen t_edit.

(** The value a call returned or sent, if it did. *)
Definition result_value {A} (o : Outcome A) : option A :=
  match result o with Ok a => Some a | Raise _ => None end.

(** ** Sample data *)

(** A customer with the factory's defaults in every field but its id and
    its name. *)
Definition customer (i : Z) (n : string) : Customer :=
  {| id := Fin i; name := JStr n;
     address := JStr "No Address"; phone := JStr "No Phone";
     email := JStr "No Email"; lastupdate := JStr "2020-02-29T12:00:00.000Z";
     country := JStr "No Country"; active := JBool true;
     contact := JStr "No Contact" |}.

(** A request with the given body and query objects. *)
Definition request_of (b q : list (string * JsVal)) : Req :=
  {| body := Some (list_to_map b); query := Some (list_to_map q) |}.

(** Two readings of the clock. *)
Definition t1 : string := "2020-03-01T08:00:00.000Z".
Definition t2 : string := "2020-03-01T08:00:00.001Z".

(** ** app.js: what is sent back *)

(** The route an incoming request is dispatched to: the five that
    [app.js] registers, and any other ([app.use('*', ...)]). *)
Inductive Route : Type :=
  | GetRoot
  | GetCustomers
  | PostCustomers
  | PutCustomers
  | DeleteCustomers
  | OtherRoute.

(** The object given to [res.send]: [{hello: 'world'}], [{customers: l}],
    a customer, or [{message: m}]. *)
Inductive Payload : Type :=
  | Hello
  | CustomerList (l : list Customer)
  | OneCustomer (c : Customer)
  | Message (m : string).

Record Response : Type := {
  status : Z;
  sent : Payload
}.

(** The error-handling middleware: a thrown text is the client's mistake
    (400), anything else is a server error (500).  [type_error_text] is
    the text the runtime gives a [TypeError] in the template literal. *)
Definition error_handler (type_error_text : string) (err : Exn) : Response :=
  {| status := match err with Thrown _ => 400 | TypeError => 500 end;
     sent := Message ("An error occurred! - "
                      ++ match err with
                         | Thrown m => m
                         | TypeError => type_error_text
                         end) |}.

(** What the client gets of a handler: [res.send] answers with the
    default status 200, an exception goes to the error handler. *)
Definition respond {A} (type_error_text : string) (wrap : A -> Payload)
    (o : Outcome A) : Response :=
  match result o with
  | Ok a => {| status := 200; sent := wrap a |}
  | Raise e => error_handler type_error_text e
  end.

(** The application on one request that has reached its route: the
    response, and the array as the request leaves it.  The middleware in
    front of the routes ([morgan], [express.json()]) is not part of it: a
    request whose body [express.json()] rejects goes to the error handler
    and to no route. *)
Definition app (route : Route) (customerExamples : list Customer) (req : Req)
    (t_gen t_edit type_error_text : string) : Response * list Customer :=
  match route with
  | GetRoot => ({| status := 200; sent := Hello |}, customerExamples)
  | GetCustomers =>
      let o := get_customers customerExamples req in
      (respond type_error_text CustomerList o, store o)
  | PostCustomers =>
      let o := post_customers customerExamples req t_gen in
      (respond type_error_text OneCustomer o, store o)
  | PutCustomers =>
      let o := put_customers customerExamples req t_gen t_edit in
      (respond type_error_text OneCustomer o, store o)
  | DeleteCustomers =>
      let o := delete_customers customerExamples req t_gen t_edit in
      (respond type_error_text OneCustomer o, store o)
  | OtherRoute =>
      ({| status := 501; sent := Message "Route not found!" |},
       customerExamples)
  end.

(** * Properties *)

(** ** The text form of a number reads back as the number *)

Lemma span_digits_uint (d : Decimal.uint) :
  span_digits (NilEmpty.string_of_uint d) = (NilEmpty.string_of_uint d, "").
Proof.
  induction d as [|d IH|d IH|d IH|d IH|d IH|d IH|d IH|d IH|d IH|d IH];
    simpl; [reflexivity | rewrite IH; reflexivity ..].
Qed.

(** A text that starts with a digit has no white space, no sign and
    no [Infinity] to be taken off its front. *)
Lemma digit_front (a : ascii) (r : string) :
  is_digit a = true ->
  skip_white (String a r) = String a r /\
  read_signed (String a r) = read_unsigned (String a r) /\
  String.prefix "Infinity" (String a r) = false.
Proof.
  destruct a as [[] [] [] [] [] [] [] []]; intros Hd;
    try discriminate Hd; repeat split; reflexivity.
Qed.

Lemma uint_head_digit (d : Decimal.uint) :
  d <> Decimal.Nil ->
  exists a r, NilEmpty.string_of_uint d = String a r /\ is_digit a = true.
Proof.
  destruct d; intros Hd; try congruence; simpl; eauto.
Qed.

Lemma read_unsigned_uint (d : Decimal.uint) :
  d <> Decimal.Nil ->
  read_unsigned (NilEmpty.string_of_uint d) = (Fin (Z.of_uint d), "").
Proof.
  intros Hd.
  destruct (uint_head_digit d Hd) as (a & r & Hs & Ha).
  unfold read_unsigned.
  rewrite span_digits_uint.
  rewrite Hs at 1.
  destruct (digit_front a r Ha) as (_ & _ & ->).
  assert (Hu : NilZero.uint_of_string (NilEmpty.string_of_uint d) = Some d).
  { rewrite <- (NilZero.usu d Hd). destruct d; [congruence | reflexivity ..]. }
  rewrite Hu. reflexivity.
Qed.

Lemma parseFloat_str_pos (p : positive) :
  parseFloat_str (NilEmpty.string_of_uint (Pos.to_uint p)) = Fin (Z.pos p).
Proof.
  pose proof (DecimalPos.Unsigned.to_uint_nonnil p) as Hn.
  destruct (uint_head_digit _ Hn) as (a & r & Hs & Ha).
  unfold parseFloat_str.
  destruct (digit_front a r Ha) as (Hw & Hr & _).
  rewrite Hs, Hw, Hr, <- Hs, (read_unsigned_uint _ Hn). simpl.
  f_equal. exact (DecimalZ.of_to (Z.pos p)).
Qed.

Lemma parseFloat_str_toString (n : number) :
  parseFloat_str (toString n) = n.
Proof.
  destruct n as [| | |[|p|p]]; try reflexivity.
  - change (toString (Fin (Z.pos p)))
      with (NilZero.string_of_uint (Pos.to_uint p)).
    pose proof (DecimalPos.Unsigned.to_uint_nonnil p) as Hn.
    replace (NilZero.string_of_uint (Pos.to_uint p))
      with (NilEmpty.string_of_uint (Pos.to_uint p))
      by (destruct (Pos.to_uint p); [congruence | reflexivity ..]).
    apply parseFloat_str_pos.
  - change (toString (Fin (Z.neg p)))
      with (String "-" (NilZero.string_of_uint (Pos.to_uint p))).
    pose proof (DecimalPos.Unsigned.to_uint_nonnil p) as Hn.
    replace (NilZero.string_of_uint (Pos.to_uint p))
      with (NilEmpty.string_of_uint (Pos.to_uint p))
      by (destruct (Pos.to_uint p); [congruence | reflexivity ..]).
    unfold parseFloat_str. cbn [skip_white is_white].
    change (is_white "-") with false. cbn iota.
    unfold read_signed. rewrite (read_unsigned_uint _ Hn). simpl.
    f_equal. exact (DecimalZ.of_to (Z.neg p)).
Qed.

(** [parseFloat(n)] of a number is that number. *)
Lemma parseFloat_num (n : number) : parseFloat (JNum n) = n.
Proof. apply parseFloat_str_toString. Qed.


(** No number has the empty text. *)
Lemma toString_nonempty (n : number) : toString n <> "".
Proof.
  destruct n as [| | |[|p|p]]; try discriminate.
  change (toString (Fin (Z.pos p)))
    with (NilZero.string_of_uint (Pos.to_uint p)).
  pose proof (DecimalPos.Unsigned.to_uint_nonnil p) as Hn.
  destruct (Pos.to_uint p); try congruence; discriminate.
Qed.

Example parseFloat_samples :
  parseFloat (JStr "  42abc") = Fin 42 /\
  parseFloat (JStr "-7") = Fin (-7) /\
  parseFloat (JNum NegInf) = NegInf /\
  parseFloat (JNum (Fin 120)) = Fin 120 /\
  parseFloat (JStr "abc") = NaN /\
  parseFloat JUndefined = NaN /\
  parseFloat (JObj "1,2") = Fin 1.
Proof. repeat split; reflexivity. Qed.

Example math_max_samples :
  math_max [] = NegInf /\
  math_max [Fin 3; Fin 7; Fin 5] = Fin 7 /\
  math_max [Fin 3; NaN; Fin 5] = NaN /\
  num_add (math_max []) (Fin 1) = NegInf.
Proof. repeat split; reflexivity. Qed.

(** ** The locator: [filter], first element, [indexOf] *)

Section Locator.

Context {A : Type} `{EqDecision A} (p : A -> bool).

(** The first element that passes the filter sits at the position
    [indexOf] returns for it, and nothing before it passes. *)
Lemma indexOf_head_filter (l : list A) (k : Z) (c : A) :
  head (List.filter p l) = Some c ->
  exists i : nat,
    indexOf_from k c l = k + Z.of_nat i /\
    l !! i = Some c /\ p c = true /\
    forall (j : nat) (y : A), (j < i)%nat -> l !! j = Some y -> p y = false.
Proof.
  revert k. induction l as [|y r IH]; intros k Hhead; [discriminate|].
  simpl in Hhead. destruct (p y) eqn:Hy.
  - injection Hhead as ->. exists 0%nat. simpl.
    rewrite decide_True by reflexivity.
    repeat split; [lia | assumption | intros j ? Hj; lia].
  - destruct (IH (k + 1) Hhead) as (i & Hidx & Hlook & Hc & Hbefore).
    exists (S i). simpl.
    rewrite decide_False by (intros ->; congruence).
    repeat split; [lia | assumption | assumption |].
    intros [|j] z Hj Hz; simpl in Hz.
    + congruence.
    + apply (Hbefore j z); [lia | assumption].
Qed.

Lemma head_filter_none (l : list A) :
  head (List.filter p l) = None -> forall y, y ∈ l -> p y = false.
Proof.
  induction l as [|x r IH]; intros Hhead y Hy.
  - inversion Hy.
  - simpl in Hhead. destruct (p x) eqn:Hx; [discriminate|].
    apply elem_of_cons in Hy as [->|Hy]; [assumption | auto].
Qed.

End Locator.

Lemma text_strict_eq_true (t : string) (v : JsVal) :
  text_strict_eq t v = true <-> v = JStr t.
Proof.
  destruct v; simpl; try (split; [discriminate | congruence]).
  rewrite String.eqb_eq. split; congruence.
Qed.

Lemma truthy_JStr (x : string) : truthy (JStr x) = true <-> x <> "".
Proof.
  simpl. rewrite negb_true_iff. split.
  - intros H ->. discriminate.
  - intros H. apply String.eqb_neq. assumption.
Qed.

(** What a result other than -1 tells: the source holds a text id, and
    the result is the first position whose record has that text as the
    text form of its id. *)
Lemma validate_inv (customerExamples : list Customer) (req : Req)
    (type : SourceKey) :
  validate customerExamples req type <> -1 ->
  exists (o : Obj) (x : string) (i : nat) (c : Customer),
    source req type = Some o /\ prop o "id" = JStr x /\
    validate customerExamples req type = Z.of_nat i /\
    customerExamples !! i = Some c /\ toString (id c) = x /\
    forall (j : nat) (y : Customer),
      (j < i)%nat -> customerExamples !! j = Some y -> toString (id y) <> x.
Proof.
  unfold validate. destruct (source req type) as [o|]; [|congruence].
  destruct (truthy (prop o "id")); simpl; [|congruence].
  destruct (head _) as [c|] eqn:Hhead; [|congruence]. intros _.
  destruct (indexOf_head_filter _ _ 0 c Hhead) as (i & Hidx & Hlook & Hc & Hfirst).
  apply text_strict_eq_true in Hc.
  exists o, (toString (id c)), i, c. unfold indexOf. rewrite Hidx.
  split_and!; [reflexivity | assumption | lia | assumption | reflexivity |].
  intros j y Hj Hy Heq. specialize (Hfirst j y Hj Hy).
  rewrite Hc in Hfirst. simpl in Hfirst.
  apply String.eqb_neq in Hfirst. congruence.
Qed.


(** A text id finds the first record with that text form. *)
Lemma validate_found (customerExamples : list Customer) (req : Req)
    (type : SourceKey) (o : Obj) (x : string) (i : nat) (c : Customer) :
  source req type = Some o -> prop o "id" = JStr x ->
  customerExamples !! i = Some c -> toString (id c) = x ->
  (forall (j : nat) (y : Customer),
     (j < i)%nat -> customerExamples !! j = Some y -> toString (id y) <> x) ->
  validate customerExamples req type = Z.of_nat i.
Proof.
  intros Hsrc Hid Hl Hc Hfirst.
  assert (Hne : validate customerExamples req type <> -1).
  { unfold validate. rewrite Hsrc, Hid.
    assert (Ht : truthy (JStr x) = true).
    { apply truthy_JStr. rewrite <- Hc. apply toString_nonempty. }
    rewrite Ht. simpl negb. cbv iota.
    destruct (head _) as [c'|] eqn:Hhead.
    - destruct (indexOf_head_filter _ _ 0 c' Hhead) as (k & Hk & _).
      unfold indexOf. lia.
    - pose proof (head_filter_none _ _ Hhead c) as Hp.
      assert (Hin : c ∈ customerExamples) by (apply list_elem_of_lookup; eauto).
      specialize (Hp Hin). simpl in Hp.
      apply String.eqb_neq in Hp. congruence. }
  destruct (validate_inv _ _ _ Hne) as (o' & x' & i' & c' & Ho & Hx & Hv & Hl' & Hc' & Hfirst').
  rewrite Hsrc in Ho. injection Ho as <-. rewrite Hid in Hx. injection Hx as <-.
  rewrite Hv. f_equal.
  destruct (Nat.lt_trichotomy i i') as [Hlt|[->|Hgt]]; [|reflexivity|].
  - exfalso. exact (Hfirst' i c Hlt Hl Hc).
  - exfalso. exact (Hfirst i' c' Hgt Hl' Hc').
Qed.

(** ** Properties of an object after [req.body.id = v] *)

Lemma prop_insert_eq (b : Obj) (k : string) (v : JsVal) :
  prop (<[k := v]> b) k = v.
Proof. unfold prop. rewrite lookup_insert_eq. reflexivity. Qed.

Lemma prop_insert_ne (b : Obj) (k k' : string) (v : JsVal) :
  k <> k' -> prop (<[k := v]> b) k' = prop b k'.
Proof. intros Hk. unfold prop. rewrite lookup_insert_ne by assumption. reflexivity. Qed.

(** ** [splice] at an existing position *)

Lemma splice_replace {A} (l : list A) (i : nat) (e : A) :
  (i < length l)%nat -> splice (Z.of_nat i) 1 [e] l = <[i := e]> l.
Proof.
  intros Hi. unfold splice, clamp_index.
  destruct (Z.ltb_spec (Z.of_nat i) 0) as [?|_]; [lia|].
  replace (Z.to_nat (Z.min (Z.of_nat i) (Z.of_nat (length l)))) with i by lia.
  replace (Z.to_nat (Z.min (Z.max 1 0) (Z.of_nat (length l - i)))) with 1%nat by lia.
  rewrite (insert_take_drop l i e Hi). simpl. do 3 f_equal. lia.
Qed.

Lemma splice_remove {A} (l : list A) (i : nat) :
  (i < length l)%nat -> splice (Z.of_nat i) 1 [] l = delete i l.
Proof.
  intros Hi. unfold splice, clamp_index.
  destruct (Z.ltb_spec (Z.of_nat i) 0) as [?|_]; [lia|].
  replace (Z.to_nat (Z.min (Z.of_nat i) (Z.of_nat (length l)))) with i by lia.
  replace (Z.to_nat (Z.min (Z.max 1 0) (Z.of_nat (length l - i)))) with 1%nat by lia.
  rewrite (delete_take_drop l i). simpl. do 2 f_equal. lia.
Qed.

(** ** [Math.max] over finite numbers *)

Lemma fold_num_max_finite (xs : list number) (a : Z) :
  Forall (fun x => is_finite x = true) xs ->
  exists m : Z,
    fold_left num_max xs (Fin a) = Fin m /\
    (m = a \/ Fin m ∈ xs) /\ a <= m /\
    forall x, x ∈ xs -> exists z, x = Fin z /\ z <= m.
Proof.
  revert a. induction xs as [|x r IH]; intros a Hfin.
  - exists a. split_and!; [reflexivity | left; reflexivity | lia |].
    intros x Hx. inversion Hx.
  - apply Forall_cons in Hfin as [Hx Hr].
    destruct x as [| | |z]; try discriminate Hx.
    simpl. destruct (Z.ltb_spec a z) as [Hlt|Hge].
    + destruct (IH z Hr) as (m & Hm & Hmem & Hle & Hall).
      exists m. split_and!; [assumption | | lia |].
      * right. destruct Hmem as [->|Hmem]; [left | right; assumption].
      * intros y Hy. apply elem_of_cons in Hy as [->|Hy]; [eauto | auto].
    + destruct (IH a Hr) as (m & Hm & Hmem & Hle & Hall).
      exists m. split_and!; [assumption | | lia |].
      * destruct Hmem as [->|Hmem]; [left; reflexivity | right; right; assumption].
      * intros y Hy. apply elem_of_cons in Hy as [->|Hy]; [|auto].
        exists z. split; [reflexivity | lia].
Qed.

(** On a non-empty list of finite numbers [Math.max] is the greatest
    of them. *)
Lemma math_max_finite (xs : list number) :
  xs <> [] -> Forall (fun x => is_finite x = true) xs ->
  exists m : Z,
    math_max xs = Fin m /\ Fin m ∈ xs /\
    forall x, x ∈ xs -> exists z, x = Fin z /\ z <= m.
Proof.
  destruct xs as [|x r]; [congruence|]. intros _ Hfin.
  apply Forall_cons in Hfin as [Hx Hr].
  destruct x as [| | |z]; try discriminate Hx.
  unfold math_max. simpl.
  destruct (fold_num_max_finite r z Hr) as (m & Hm & Hmem & Hle & Hall).
  exists m. split_and!; [assumption | |].
  - destruct Hmem as [->|Hmem]; [left | right; assumption].
  - intros y Hy. apply elem_of_cons in Hy as [->|Hy]; [eauto | auto].
Qed.

Lemma safe_integer_finite (n : number) :
  is_safe_integer n = true -> is_finite n = true.
Proof. destruct n; simpl; congruence. Qed.

(** ** The factory *)

(** [generate] succeeds as soon as the request has its body and query
    objects, and returns the record read off the body with its id
    assigned. *)
Lemma generate_ok (customerExamples : list Customer) (req : Req)
    (keepID : bool) (now : string) (b q : Obj) :
  body req = Some b -> query req = Some q ->
  exists v : JsVal,
    generate customerExamples req keepID now =
      {| result := Ok (customer_of (<["id" := v]> b) now);
         store := customerExamples;
         request := set_body_id req b v |} /\
    v = (if negb keepID
         then JNum (num_add (math_max (map id customerExamples)) (Fin 1))
         else js_or (prop b "id") (prop q "id")).
Proof.
  intros Hb Hq. unfold generate, js_or. rewrite Hb, Hq.
  destruct keepID; simpl; [destruct (truthy (prop b "id"))|]; eauto.
Qed.

(** A create needs the body only. *)
Lemma generate_create (customerExamples : list Customer) (req : Req)
    (now : string) (b : Obj) :
  body req = Some b ->
  generate customerExamples req false now =
    let v := JNum (num_add (math_max (map id customerExamples)) (Fin 1)) in
    {| result := Ok (customer_of (<["id" := v]> b) now);
       store := customerExamples;
       request := set_body_id req b v |}.
Proof. intros Hb. unfold generate. rewrite Hb. reflexivity. Qed.

Lemma js_or_falsy (v d : JsVal) : truthy v = false -> js_or v d = d.
Proof. unfold js_or. intros ->. reflexivity. Qed.

Lemma js_or_truthy (v d : JsVal) : truthy v = true -> js_or v d = v.
Proof. unfold js_or. intros ->. reflexivity. Qed.

(** C1 (as amended).  For a create or update payload, every text field
    that is absent or falsy in the payload gets its placeholder in the
    record [generate] returns.  The [active] field of that record is
    [true] when the payload's [active] is absent, falsy or a boolean; any
    other truthy value is returned as it was sent. *)
Theorem generate_defaults (customerExamples : list Customer) (req : Req)
    (keepID : bool) (now : string) (b q : Obj) :
  body req = Some b -> query req = Some q ->
  exists c : Customer,
    result (generate customerExamples req keepID now) = Ok c /\
    (truthy (prop b "name") = false -> name c = JStr "No Name") /\
    (truthy (prop b "address") = false -> address c = JStr "No Address") /\
    (truthy (prop b "phone") = false -> phone c = JStr "No Phone") /\
    (truthy (prop b "email") = false -> email c = JStr "No Email") /\
    (truthy (prop b "country") = false -> country c = JStr "No Country") /\
    (truthy (prop b "contact") = false -> contact c = JStr "No Contact") /\
    (truthy (prop b "active") = false \/ (exists x, prop b "active" = JBool x) ->
     active c = JBool true) /\
    (truthy (prop b "active") = true -> active c = prop b "active").
Proof.
  intros Hb Hq.
  destruct (generate_ok customerExamples req keepID now b q Hb Hq) as (v & -> & _).
  eexists. split; [reflexivity|]. simpl.
  rewrite !prop_insert_ne by discriminate.
  split_and!; try apply js_or_falsy; try apply js_or_truthy.
  intros [Hf|[[|] Hx]].
  - apply js_or_falsy. assumption.
  - rewrite Hx. reflexivity.
  - rewrite Hx. reflexivity.
Qed.

Lemma generate_defaults_witness :
  exists c : Customer,
    result (generate [customer 1 "A"]
              (request_of [("id", JStr "1"); ("name", JStr "B");
                           ("active", JBool false)] [])
              true t1) = Ok c /\
    (truthy (JStr "B") = false -> name c = JStr "No Name") /\
    (truthy JUndefined = false -> address c = JStr "No Address") /\
    (truthy JUndefined = false -> phone c = JStr "No Phone") /\
    (truthy JUndefined = false -> email c = JStr "No Email") /\
    (truthy JUndefined = false -> country c = JStr "No Country") /\
    (truthy JUndefined = false -> contact c = JStr "No Contact") /\
    (truthy (JBool false) = false \/ (exists x, JBool false = JBool x) ->
     active c = JBool true) /\
    (truthy (JBool false) = true -> active c = JBool false).
Proof.
  exact (generate_defaults [customer 1 "A"]
           (request_of [("id", JStr "1"); ("name", JStr "B");
                        ("active", JBool false)] [])
           true t1 _ _ eq_refl eq_refl).
Defined.

(** C1, as stated, fails: a truthy [active] that is not a boolean is
    kept, so the record's [active] is not [true]. *)
Lemma generate_active_kept :
  exists c : Customer,
    result (generate [customer 1 "A"]
              (request_of [("name", JStr "B"); ("active", JStr "no")] [])
              false t1) = Ok c /\
    active c = JStr "no" /\ active c <> JBool true.
Proof.
  eexists. split; [reflexivity|]. split; [reflexivity | discriminate].
Qed.

(** The id of the record [generate] makes for a create. *)
Lemma generate_create_id (customerExamples : list Customer) (b : Obj)
    (now : string) :
  let v := JNum (num_add (math_max (map id customerExamples)) (Fin 1)) in
  id (customer_of (<["id" := v]> b) now) =
  num_add (math_max (map id customerExamples)) (Fin 1).
Proof. simpl. rewrite prop_insert_eq. apply parseFloat_num. Qed.

(** C2 (as amended).  For a create on a non-empty Store whose ids are
    all safe integers, the record returned and appended has the greatest
    id of the Store plus 1, and no record of the Store has that id. *)
Theorem create_assigns_next_id (customerExamples : list Customer)
    (req : Req) (now : string) (b : Obj) :
  body req = Some b ->
  customerExamples <> [] ->
  Forall (fun c => is_safe_integer (id c) = true) customerExamples ->
  exists (c : Customer) (m : Z),
    result (post_customers customerExamples req now) = Ok c /\
    store (post_customers customerExamples req now) = (customerExamples ++ [c])%list /\
    (exists c', c' ∈ customerExamples /\ id c' = Fin m) /\
    (forall c', c' ∈ customerExamples -> exists z, id c' = Fin z /\ z <= m) /\
    id c = Fin (m + 1) /\
    (forall c', c' ∈ customerExamples -> id c' <> id c).
Proof.
  intros Hb Hne Hsafe.
  assert (Hfin : Forall (fun x => is_finite x = true) (map id customerExamples)).
  { apply Forall_fmap. eapply Forall_impl; [exact Hsafe|].
    intros c Hc. apply safe_integer_finite. exact Hc. }
  assert (Hne' : map id customerExamples <> []).
  { destruct customerExamples; [congruence | discriminate]. }
  destruct (math_max_finite _ Hne' Hfin) as (m & Hmax & Hmem & Hall).
  assert (Hle : forall c', c' ∈ customerExamples -> exists z, id c' = Fin z /\ z <= m).
  { intros c' Hc'. apply Hall. apply list_elem_of_fmap. eauto. }
  unfold post_customers. rewrite (generate_create _ _ _ _ Hb). cbn zeta.
  cbn [result store request].
  eexists _, m. split_and!; [reflexivity | reflexivity | | exact Hle | |].
  - apply list_elem_of_fmap in Hmem as (c' & Hid & Hc'). eauto.
  - rewrite generate_create_id, Hmax. reflexivity.
  - intros c' Hc'. rewrite generate_create_id, Hmax. simpl.
    destruct (Hle c' Hc') as (z & -> & Hz). intros [= ->]. lia.
Qed.

Lemma create_assigns_next_id_witness :
  exists (c : Customer) (m : Z),
    result (post_customers [customer 1 "A"; customer 4 "D"; customer 2 "C"]
              (request_of [("name", JStr "B")] []) t1) = Ok c /\
    store (post_customers [customer 1 "A"; customer 4 "D"; customer 2 "C"]
              (request_of [("name", JStr "B")] []) t1) =
      ([customer 1 "A"; customer 4 "D"; customer 2 "C"] ++ [c])%list /\
    (exists c', c' ∈ [customer 1 "A"; customer 4 "D"; customer 2 "C"]
                /\ id c' = Fin m) /\
    (forall c', c' ∈ [customer 1 "A"; customer 4 "D"; customer 2 "C"] ->
                exists z, id c' = Fin z /\ z <= m) /\
    id c = Fin (m + 1) /\
    (forall c', c' ∈ [customer 1 "A"; customer 4 "D"; customer 2 "C"] ->
                id c' <> id c).
Proof.
  apply (create_assigns_next_id
           [customer 1 "A"; customer 4 "D"; customer 2 "C"]
           (request_of [("name", JStr "B")] []) t1 _ eq_refl).
  - discriminate.
  - repeat constructor.
Defined.

(** C2, as stated, fails on the Store a create leaves when it starts
    from the empty one: its only id is [-Infinity], the next create makes
    [-Infinity + 1 = -Infinity] again, and the Store holds the id twice. *)
Lemma create_repeats_infinite_id :
  exists c1 c2 : Customer,
    store (post_customers [] (request_of [] []) t1) = [c1] /\
    result (post_customers [c1] (request_of [] []) t2) = Ok c2 /\
    c1 ∈ [c1] /\ id c1 = NegInf /\ id c2 = id c1 /\
    id <$> store (post_customers [c1] (request_of [] []) t2) = [NegInf; NegInf].
Proof.
  eexists _, _. split_and!; try reflexivity. apply list_elem_of_here.
Qed.

Example create_next_id_example :
  id <$> result_value (post_customers [customer 1 "A"; customer 4 "D"]
                         (request_of [] []) t1) = Some (Fin 5).
Proof. reflexivity. Qed.

(** ** The locator *)

(** C3.  The locator on a body whose id is the number 1, over a Store
    whose only record has the id 1: both ids have the text form ["1"],
    and [validate] answers -1.  Only the record's id is turned into
    text; [===] then compares that text with the number. *)
Theorem validate_numeric_id_not_found :
  validate [customer 1 "A"]
           (request_of [("id", JNum (Fin 1)); ("name", JStr "B")] [])
           SrcBody = -1 /\
  toString (id (customer 1 "A")) = to_text (JNum (Fin 1)).
Proof. split; reflexivity. Qed.

(** The same Store and the id sent as the text ["1"]: position 0. *)
Example validate_text_id_found :
  validate [customer 1 "A"]
           (request_of [("id", JStr "1"); ("name", JStr "B")] [])
           SrcBody = 0.
Proof. reflexivity. Qed.

(** C10.  A result of [validate] other than -1 is a position of the Store,
    the record there has the source's id as the text form of its id, and
    the two [splice] calls of [changeOrDelete] at that position replace,
    respectively remove, exactly that record. *)
Theorem validate_index_valid (customerExamples : list Customer) (req : Req)
    (type : SourceKey) :
  validate customerExamples req type <> -1 ->
  0 <= validate customerExamples req type
    < Z.of_nat (length customerExamples) /\
  exists (i : nat) (c : Customer) (o : Obj) (x : string),
    validate customerExamples req type = Z.of_nat i /\
    customerExamples !! i = Some c /\
    source req type = Some o /\ prop o "id" = JStr x /\
    toString (id c) = x /\
    (forall e : Customer,
       splice (validate customerExamples req type) 1 [e] customerExamples
       = <[i := e]> customerExamples) /\
    splice (validate customerExamples req type) 1 [] customerExamples
    = delete i customerExamples.
Proof.
  intros Hne.
  destruct (validate_inv _ _ _ Hne) as (o & x & i & c & Ho & Hx & Hv & Hl & Hc & _).
  pose proof (lookup_lt_Some _ _ _ Hl) as Hi.
  split; [lia|].
  exists i, c, o, x. rewrite Hv.
  split_and!; try assumption; try reflexivity.
  - intros e. apply splice_replace. assumption.
  - apply splice_remove. assumption.
Qed.

Lemma validate_index_valid_witness :
  0 <= validate [customer 1 "A"; customer 2 "C"]
         (request_of [] [("id", JStr "2")]) SrcQuery
    < Z.of_nat (length [customer 1 "A"; customer 2 "C"]) /\
  exists (i : nat) (c : Customer) (o : Obj) (x : string),
    validate [customer 1 "A"; customer 2 "C"]
      (request_of [] [("id", JStr "2")]) SrcQuery = Z.of_nat i /\
    [customer 1 "A"; customer 2 "C"] !! i = Some c /\
    source (request_of [] [("id", JStr "2")]) SrcQuery = Some o /\
    prop o "id" = JStr x /\
    toString (id c) = x /\
    (forall e : Customer,
       splice (validate [customer 1 "A"; customer 2 "C"]
                 (request_of [] [("id", JStr "2")]) SrcQuery)
              1 [e] [customer 1 "A"; customer 2 "C"]
       = <[i := e]> [customer 1 "A"; customer 2 "C"]) /\
    splice (validate [customer 1 "A"; customer 2 "C"]
              (request_of [] [("id", JStr "2")]) SrcQuery)
           1 [] [customer 1 "A"; customer 2 "C"]
    = delete i [customer 1 "A"; customer 2 "C"].
Proof.
  apply (validate_index_valid [customer 1 "A"; customer 2 "C"]
           (request_of [] [("id", JStr "2")]) SrcQuery).
  vm_compute. discriminate.
Defined.

(** ** The orchestrator *)

(** The source [changeOrDelete] reads: the body for an update, the query
    for a delete. *)
Lemma changeOrDelete_guard (req : Req) (update : bool) :
  (update && bool_decide (is_Some (body req)))
  || (negb update && bool_decide (is_Some (query req)))
  = bool_decide (is_Some (source req (if update then SrcBody else SrcQuery))).
Proof. destruct update; simpl; [apply orb_false_r | reflexivity]. Qed.


(** C4.  The update of the claim: the Store holds the record with id 1
    and name ["A"], the payload is [{id: 1, name: "B"}] with the id a
    number.  The locator does not find the record, the update is
    refused with [RecordNotFound] and the Store keeps the old record. *)
Theorem update_numeric_id_refused :
  put_customers [customer 1 "A"]
    (request_of [("id", JNum (Fin 1)); ("name", JStr "B")] []) t1 t2 =
  {| result := Raise RecordNotFound;
     store := [customer 1 "A"];
     request := request_of [("id", JNum (Fin 1)); ("name", JStr "B")] [] |}.
Proof. reflexivity. Qed.

(** With the id sent as the text ["1"] the update goes through: same
    position, id 1, name ["B"], the other fields at their defaults. *)
Example update_text_id_replaces :
  let o := put_customers
             [{| id := Fin 1; name := JStr "A"; address := JStr "Main St 5";
                 phone := JStr "555"; email := JStr "a@a.io";
                 lastupdate := JStr "2020-02-29T12:00:00.000Z";
                 country := JStr "BR"; active := JBool true;
                 contact := JStr "Ann" |}]
             (request_of [("id", JStr "1"); ("name", JStr "B")] []) t1 t2 in
  result o = Ok {| id := Fin 1; name := JStr "B";
                   address := JStr "No Address"; phone := JStr "No Phone";
                   email := JStr "No Email"; lastupdate := JStr t2;
                   country := JStr "No Country"; active := JBool true;
                   contact := JStr "No Contact" |} /\
  Some <$> store o = [result_value o].
Proof. split; reflexivity. Qed.





(** An absent source is the one case of [MissingInput]. *)
Lemma changeOrDelete_missing_input (customerExamples : list Customer)
    (req : Req) (update : bool) (t_gen t_edit : string) :
  result (changeOrDelete customerExamples req update t_gen t_edit)
    = Raise MissingInput
  <-> source req (if update then SrcBody else SrcQuery) = None.
Proof.
  unfold changeOrDelete. rewrite changeOrDelete_guard.
  destruct (source req _) as [o|] eqn:Hsrc.
  - rewrite bool_decide_eq_true_2 by eauto.
    split; [|discriminate].
    destruct (_ =? -1); [discriminate|].
    destruct (result (generate _ _ _ _)) eqn:Hg; [discriminate|].
    cbn [result]. intros [= ->].
    unfold generate in Hg. destruct (body req); [|discriminate].
    destruct (truthy _); [discriminate|].
    destruct (query req); discriminate.
  - rewrite bool_decide_eq_false_2 by (intros [? [=]]).
    split; reflexivity.
Qed.

(** C6 (as amended).  An update or delete whose source (the body for an
    update, the query for a delete) is present but holds no id, or a
    falsy one, is refused with [RecordNotFound], not with
    [MissingInput]; the Store and the request are left as they were. *)
Theorem changeOrDelete_without_id (customerExamples : list Customer)
    (req : Req) (update : bool) (t_gen t_edit : string) (o : Obj) :
  source req (if update then SrcBody else SrcQuery) = Some o ->
  truthy (prop o "id") = false ->
  changeOrDelete customerExamples req update t_gen t_edit =
    {| result := Raise RecordNotFound;
       store := customerExamples; request := req |} /\
  RecordNotFound <> MissingInput.
Proof.
  intros Hsrc Hid. split; [|discriminate].
  unfold changeOrDelete. rewrite changeOrDelete_guard, Hsrc.
  rewrite bool_decide_eq_true_2 by eauto.
  unfold validate. rewrite Hsrc, Hid. reflexivity.
Qed.

Lemma changeOrDelete_without_id_witness :
  changeOrDelete [customer 1 "A"] (request_of [] [("qty", JStr "2")])
    false t1 t2 =
    {| result := Raise RecordNotFound;
       store := [customer 1 "A"];
       request := request_of [] [("qty", JStr "2")] |} /\
  RecordNotFound <> MissingInput.
Proof.
  exact (changeOrDelete_without_id [customer 1 "A"]
           (request_of [] [("qty", JStr "2")]) false t1 t2 _
           eq_refl eq_refl).
Defined.

(** C6, as stated, fails: an update whose body is there but has no id
    is refused with [RecordNotFound], and [MissingInput] is what it is
    not refused with. *)
Lemma update_without_id_not_missing_input :
  result (put_customers [customer 1 "A"]
            (request_of [("name", JStr "B")] []) t1 t2)
    = Raise RecordNotFound /\
  result (put_customers [customer 1 "A"]
            (request_of [("name", JStr "B")] []) t1 t2)
    <> Raise MissingInput.
Proof. split; [reflexivity | discriminate]. Qed.

(** ** The list route *)

(** [===] between a record's id, a number, and a text is false. *)
Lemma num_strict_eq_text (n : number) (x : string) :
  num_strict_eq n (JStr x) = false.
Proof. destruct n; reflexivity. Qed.

Lemma slice0_nil {A} (v : JsVal) : slice0 v (@nil A) = [].
Proof. unfold slice0. destruct v; try reflexivity; apply take_nil. Qed.

(** With a text id in the query the filter keeps no record at all: the
    ids of the Store are numbers and the comparison is [===]. *)
Lemma get_customers_text_id (customerExamples : list Customer) (req : Req)
    (q : Obj) (x : string) :
  query req = Some q -> prop q "id" = JStr x -> x <> "" ->
  get_customers customerExamples req =
    {| result := Ok []; store := customerExamples; request := req |}.
Proof.
  intros Hq Hid Hx. unfold get_customers. rewrite Hq, Hid.
  rewrite (proj2 (truthy_JStr x) Hx).
  assert (Hnil : List.filter (fun f => num_strict_eq (id f) (JStr x))
                   customerExamples = []).
  { induction customerExamples as [|c r IH]; [reflexivity|].
    simpl. rewrite num_strict_eq_text. exact IH. }
  rewrite Hnil. destruct (truthy (prop q "qty")); [rewrite slice0_nil|];
    reflexivity.
Qed.

(** C7.  The list request [?id=2] on a Store that holds a record whose
    id reads ["2"]: the list sent is empty, the record is not in it.  The
    filter compares the record's id, a number, with the text by [===],
    without the [toString] that [validate] applies to find position 1. *)
Theorem list_by_id_misses_record :
  result (get_customers [customer 1 "A"; customer 2 "C"]
            (request_of [] [("id", JStr "2")])) = Ok [] /\
  customer 2 "C" ∈ [customer 1 "A"; customer 2 "C"] /\
  toString (id (customer 2 "C")) = "2" /\
  validate [customer 1 "A"; customer 2 "C"]
    (request_of [] [("id", JStr "2")]) SrcQuery = 1.
Proof.
  split_and!; try reflexivity. apply list_elem_of_further, list_elem_of_here.
Qed.

(** An empty id in the query is no filter: the whole Store is sent. *)
Example list_with_empty_id :
  result (get_customers [customer 1 "A"; customer 2 "C"]
            (request_of [] [("id", JStr "")]))
  = Ok [customer 1 "A"; customer 2 "C"].
Proof. reflexivity. Qed.

Example get_customers_qty :
  result (get_customers
            [customer 1 "A"; customer 2 "B"; customer 3 "C";
             customer 4 "D"; customer 5 "E"]
            (request_of [] [("qty", JStr "2")]))
  = Ok [customer 1 "A"; customer 2 "B"].
Proof. reflexivity. Qed.

(** ** What [generate] changes *)

(** C8 (as amended).  [generate] leaves the Store and the query of the
    request as they were.  When it raises, the request is untouched; when
    it returns, the body of the request is the old body with its [id]
    overwritten (by the new id for a create, else by the body's own id
    when that is truthy, else by the id of the query), every other
    property as before. *)
Theorem generate_effects (customerExamples : list Customer) (req : Req)
    (keepID : bool) (now : string) :
  store (generate customerExamples req keepID now) = customerExamples /\
  query (request (generate customerExamples req keepID now)) = query req /\
  match result (generate customerExamples req keepID now) with
  | Raise _ => request (generate customerExamples req keepID now) = req
  | Ok _ =>
      exists (b : Obj) (v : JsVal),
        body req = Some b /\
        body (request (generate customerExamples req keepID now))
          = Some (<["id" := v]> b) /\
        (forall k : string, k <> "id" -> prop (<["id" := v]> b) k = prop b k) /\
        (keepID = false ->
         v = JNum (num_add (math_max (map id customerExamples)) (Fin 1))) /\
        (keepID = true -> truthy (prop b "id") = true -> v = prop b "id") /\
        (keepID = true -> truthy (prop b "id") = false ->
         exists q : Obj, query req = Some q /\ v = prop q "id")
  end.
Proof.
  unfold generate. destruct (body req) as [b|] eqn:Hb;
    [|split_and!; reflexivity].
  destruct (if negb keepID then _ else _) as [v|] eqn:Hv;
    cbn [result store request]; [|split_and!; reflexivity].
  split_and!; [reflexivity | reflexivity |].
  exists b, v. split_and!; [reflexivity | reflexivity | | | |].
  - intros k Hk. apply prop_insert_ne. congruence.
  - intros ->. simpl in Hv. congruence.
  - intros -> Ht. simpl in Hv. rewrite Ht in Hv. congruence.
  - intros -> Ht. simpl in Hv. rewrite Ht in Hv.
    destruct (query req) as [q|]; [|discriminate].
    exists q. split; [reflexivity|]. simpl in Hv. congruence.
Qed.

(** C8, as stated, fails: after a create the payload holds the new id,
    which it did not hold before. *)
Lemma generate_writes_body_id :
  exists b' : Obj,
    body (request_of [("name", JStr "B")] []) = Some {[ "name" := JStr "B" ]} /\
    body (request (generate [customer 1 "A"]
                     (request_of [("name", JStr "B")] []) false t1)) = Some b' /\
    prop {[ "name" := JStr "B" ]} "id" = JUndefined /\
    prop b' "id" = JNum (Fin 2) /\
    b' <> {[ "name" := JStr "B" ]}.
Proof.
  eexists. split_and!; try reflexivity.
  intros Heq. apply (f_equal (fun m : Obj => m !! "id")) in Heq.
  vm_compute in Heq. discriminate.
Qed.

(** ** A create on the empty Store *)

(** C9.  A create on the empty Store returns a record and appends it; the
    id of that record is [-Infinity], which is no finite number. *)
Theorem create_on_empty_store (req : Req) (now : string) (b : Obj) :
  body req = Some b ->
  exists c : Customer,
    result (post_customers [] req now) = Ok c /\
    store (post_customers [] req now) = [c] /\
    id c = NegInf /\ is_finite (id c) = false /\
    is_safe_integer (id c) = false.
Proof.
  intros Hb. unfold post_customers. rewrite (generate_create _ _ _ _ Hb).
  cbn zeta. cbn [result store request].
  eexists. split_and!; try reflexivity;
    rewrite generate_create_id; reflexivity.
Qed.

Lemma create_on_empty_store_witness :
  exists c : Customer,
    result (post_customers [] (request_of [("name", JStr "B")] []) t1) = Ok c /\
    store (post_customers [] (request_of [("name", JStr "B")] []) t1) = [c] /\
    id c = NegInf /\ is_finite (id c) = false /\
    is_safe_integer (id c) = false.
Proof.
  exact (create_on_empty_store (request_of [("name", JStr "B")] []) t1 _ eq_refl).
Defined.

(** * Further properties of the routes *)

(** ** The list route: what it sends *)





(** [Number(text)] of the text form of a number is that number. *)
Lemma toNumber_str_toString (n : number) : toNumber_str (toString n) = n.
Proof.
  destruct n as [| | |[|p|p]]; try reflexivity.
  - change (toString (Fin (Z.pos p)))
      with (NilZero.string_of_uint (Pos.to_uint p)).
    pose proof (DecimalPos.Unsigned.to_uint_nonnil p) as Hn.
    replace (NilZero.string_of_uint (Pos.to_uint p))
      with (NilEmpty.string_of_uint (Pos.to_uint p))
      by (destruct (Pos.to_uint p); [congruence | reflexivity ..]).
    destruct (uint_head_digit _ Hn) as (a & r & Hs & Ha).
    destruct (digit_front a r Ha) as (Hw & Hr & _).
    unfold toNumber_str. rewrite Hs, Hw. cbn [String.eqb].
    rewrite Hr, <- Hs, (read_unsigned_uint _ Hn). simpl.
    f_equal. exact (DecimalZ.of_to (Z.pos p)).
  - change (toString (Fin (Z.neg p)))
      with (String "-" (NilZero.string_of_uint (Pos.to_uint p))).
    pose proof (DecimalPos.Unsigned.to_uint_nonnil p) as Hn.
    replace (NilZero.string_of_uint (Pos.to_uint p))
      with (NilEmpty.string_of_uint (Pos.to_uint p))
      by (destruct (Pos.to_uint p); [congruence | reflexivity ..]).
    unfold toNumber_str. cbn [skip_white is_white].
    change (is_white "-") with false. cbn iota. cbn [String.eqb].
    unfold read_signed. rewrite (read_unsigned_uint _ Hn). simpl.
    f_equal. exact (DecimalZ.of_to (Z.neg p)).
Qed.

(** X2.  Without an id filter, a [qty] that is the text of an integer
    [z] cuts the list to the first [z] records of the Store when [z] is
    not negative (the whole Store when it has fewer), and drops the last
    [-z] records when it is negative. *)
Theorem get_customers_qty_prefix (customerExamples : list Customer)
    (req : Req) (q : Obj) (z : Z) :
  query req = Some q ->
  truthy (prop q "id") = false ->
  prop q "qty" = JStr (toString (Fin z)) ->
  result (get_customers customerExamples req) =
    Ok (take (Z.to_nat (if z <? 0
                        then Z.of_nat (length customerExamples) + z
                        else z))
             customerExamples).
Proof.
  intros Hq Hid Hqty. unfold get_customers. rewrite Hq, Hid, Hqty.
  rewrite (proj2 (truthy_JStr _) (toString_nonempty (Fin z))).
  cbn [result]. f_equal. unfold slice0. cbn [toNumber].
  rewrite toNumber_str_toString. unfold clamp_index.
  destruct (Z.ltb_spec z 0) as [Hneg|Hpos].
  - f_equal. lia.
  - destruct (Z.le_gt_cases z (Z.of_nat (length customerExamples))) as [Hle|Hgt].
    + f_equal. lia.
    + rewrite !take_ge by lia. reflexivity.
Qed.

Lemma get_customers_qty_prefix_witness :
  result (get_customers
            [customer 1 "A"; customer 2 "B"; customer 3 "C"]
            (request_of [] [("qty", JStr "-1")])) =
    Ok (take (Z.to_nat (if -1 <? 0
                        then Z.of_nat (length [customer 1 "A"; customer 2 "B";
                                               customer 3 "C"]) + -1
                        else -1))
             [customer 1 "A"; customer 2 "B"; customer 3 "C"]).
Proof.
  exact (get_customers_qty_prefix
           [customer 1 "A"; customer 2 "B"; customer 3 "C"]
           (request_of [] [("qty", JStr "-1")]) _ (-1)
           eq_refl eq_refl eq_refl).
Defined.



(** ** Update and delete: what a success means *)

(** A request whose body already holds [v] as id is left as it is by
    [req.body.id = v]. *)
Lemma set_body_id_same (req : Req) (b : Obj) (v : JsVal) :
  body req = Some b -> b !! "id" = Some v -> set_body_id req b v = req.
Proof.
  intros Hb Hv. unfold set_body_id. rewrite (insert_id b "id" v Hv).
  destruct req as [rb rq]. simpl in *. congruence.
Qed.

Lemma prop_JStr_lookup (o : Obj) (k x : string) :
  prop o k = JStr x -> o !! k = Some (JStr x).
Proof. unfold prop. destruct (o !! k); simpl; [congruence | discriminate]. Qed.

(** Reading a success of [changeOrDelete] backwards: the source held a
    text id, the position is the first record with that text form, the
    record sent is the one [generate] reads off the body (with the id it
    assigned), stamped with the later time, and the array is the old one
    with that position replaced or removed. *)
Lemma changeOrDelete_ok_inv (customerExamples : list Customer) (req : Req)
    (update : bool) (t_gen t_edit : string) (c : Customer) :
  result (changeOrDelete customerExamples req update t_gen t_edit) = Ok c ->
  exists (i : nat) (old : Customer) (b o : Obj) (v : JsVal),
    body req = Some b /\
    source req (if update then SrcBody else SrcQuery) = Some o /\
    prop o "id" = JStr (toString (id old)) /\
    customerExamples !! i = Some old /\
    (forall (j : nat) (y : Customer),
       (j < i)%nat -> customerExamples !! j = Some y ->
       toString (id y) <> toString (id old)) /\
    v = (if update then prop o "id" else js_or (prop b "id") (prop o "id")) /\
    c = set_lastupdate (customer_of (<["id" := v]> b) t_gen) t_edit /\
    changeOrDelete customerExamples req update t_gen t_edit =
      {| result := Ok c;
         store := if update then <[i := c]> customerExamples
                  else delete i customerExamples;
         request := set_body_id req b v |}.
Proof.
  unfold changeOrDelete. rewrite changeOrDelete_guard.
  destruct (source req _) as [o|] eqn:Hsrc.
  2:{ rewrite bool_decide_eq_false_2 by (intros [? [=]]). discriminate. }
  rewrite bool_decide_eq_true_2 by eauto.
  destruct (Z.eqb_spec (validate customerExamples req
                          (if update then SrcBody else SrcQuery)) (-1))
    as [|Hne]; [discriminate|].
  destruct (validate_inv _ _ _ Hne)
    as (o' & x & i & old & Ho & Hx & Hv & Hl & Hold & Hfirst).
  rewrite Hsrc in Ho. injection Ho as <-. subst x.
  pose proof (lookup_lt_Some _ _ _ Hl) as Hi.
  assert (Htruthy : truthy (prop o "id") = true).
  { rewrite Hx. apply truthy_JStr, toString_nonempty. }
  rewrite Hv.
  unfold generate. destruct update; simpl in Hsrc.
  - rewrite Hsrc. cbn [negb]. rewrite Htruthy. cbn [result store request].
    intros [= <-]. exists i, old, o, o, (prop o "id").
    rewrite splice_replace by assumption.
    split_and!; try reflexivity; assumption.
  - destruct (body req) as [b|] eqn:Hb; [|discriminate].
    cbn [negb]. rewrite Hsrc. cbn [fmap option_fmap option_map].
    assert (Hgen : (if truthy (prop b "id") then Some (prop b "id")
                    else Some (prop o "id"))
                   = Some (js_or (prop b "id") (prop o "id"))).
    { unfold js_or. destruct (truthy (prop b "id")); reflexivity. }
    rewrite Hgen. cbn [result store request].
    intros [= <-]. exists i, old, b, o, (js_or (prop b "id") (prop o "id")).
    rewrite splice_remove by assumption.
    split_and!; try reflexivity; assumption.
Qed.

(** Whatever [changeOrDelete] raises, it raises before it writes. *)
Lemma changeOrDelete_raise_unchanged (customerExamples : list Customer)
    (req : Req) (update : bool) (t_gen t_edit : string) (e : Exn) :
  result (changeOrDelete customerExamples req update t_gen t_edit) = Raise e ->
  changeOrDelete customerExamples req update t_gen t_edit =
    {| result := Raise e; store := customerExamples; request := req |}.
Proof.
  unfold changeOrDelete.
  destruct (_ || _); [|intros [= <-]; reflexivity].
  destruct (_ =? -1); [intros [= <-]; reflexivity|].
  unfold generate. destruct (body req) as [b|]; [|intros [= <-]; reflexivity].
  destruct (if negb true then _ else _) as [v|];
    cbn [result store request]; [discriminate | intros [= <-]; reflexivity].
Qed.

Lemma post_raise_unchanged (customerExamples : list Customer) (req : Req)
    (now : string) (e : Exn) :
  result (post_customers customerExamples req now) = Raise e ->
  post_customers customerExamples req now =
    {| result := Raise e; store := customerExamples; request := req |}.
Proof.
  unfold post_customers, generate.
  destruct (body req) as [b|]; cbn [negb result store request];
    [discriminate | intros [= <-]; reflexivity].
Qed.

Lemma get_store_unchanged (customerExamples : list Customer) (req : Req) :
  store (get_customers customerExamples req) = customerExamples /\
  request (get_customers customerExamples req) = req.
Proof. unfold get_customers. destruct (query req); split; reflexivity. Qed.

(** X4.  An update whose body holds, as id, the text form of the id of
    some record succeeds.  The first record with that text form is
    replaced, in place, by the record read off the body alone (defaults
    where the body has no truthy field: nothing of the old record is
    merged in), its [lastupdate] set to the time of the update whatever
    the body says; the new record has the id of the old one, and the
    request is left as it was. *)
Theorem put_text_id_replaces (customerExamples : list Customer) (req : Req)
    (t_gen t_edit : string) (b : Obj) (i : nat) (old : Customer) :
  body req = Some b ->
  prop b "id" = JStr (toString (id old)) ->
  customerExamples !! i = Some old ->
  (forall (j : nat) (y : Customer),
     (j < i)%nat -> customerExamples !! j = Some y ->
     toString (id y) <> toString (id old)) ->
  let c := set_lastupdate (customer_of b t_gen) t_edit in
  put_customers customerExamples req t_gen t_edit =
    {| result := Ok c; store := <[i := c]> customerExamples; request := req |}
  /\ id c = id old /\ lastupdate c = JStr t_edit.
Proof.
  intros Hb Hid Hl Hfirst c.
  assert (Hsrc : source req SrcBody = Some b) by exact Hb.
  pose proof (validate_found _ _ _ _ _ _ _ Hsrc Hid Hl eq_refl Hfirst) as Hv.
  pose proof (lookup_lt_Some _ _ _ Hl) as Hi.
  pose proof (prop_JStr_lookup _ _ _ Hid) as Hlook.
  assert (Htruthy : truthy (prop b "id") = true).
  { rewrite Hid. apply truthy_JStr, toString_nonempty. }
  split_and!.
  - unfold put_customers, changeOrDelete.
    rewrite changeOrDelete_guard, Hsrc, bool_decide_eq_true_2 by eauto.
    rewrite Hv. destruct (Z.eqb_spec (Z.of_nat i) (-1)) as [?|_]; [lia|].
    unfold generate. rewrite Hb. cbn [negb]. rewrite Htruthy.
    cbn [result store request].
    rewrite splice_replace by assumption.
    rewrite Hid, (insert_id b "id" _ Hlook).
    rewrite (set_body_id_same req b _ Hb Hlook). reflexivity.
  - subst c. cbn [set_lastupdate customer_of id]. rewrite Hid.
    apply parseFloat_str_toString.
  - reflexivity.
Qed.

Lemma put_text_id_replaces_witness :
  let c := set_lastupdate
             (customer_of (list_to_map [("id", JStr "2"); ("phone", JStr "555")])
                t1) t2 in
  put_customers [customer 1 "A"; customer 2 "B"]
    (request_of [("id", JStr "2"); ("phone", JStr "555")] []) t1 t2 =
    {| result := Ok c;
       store := <[1%nat := c]> [customer 1 "A"; customer 2 "B"];
       request := request_of [("id", JStr "2"); ("phone", JStr "555")] [] |}
  /\ id c = id (customer 2 "B") /\ lastupdate c = JStr t2.
Proof.
  apply (put_text_id_replaces [customer 1 "A"; customer 2 "B"]
           (request_of [("id", JStr "2"); ("phone", JStr "555")] []) t1 t2
           (list_to_map [("id", JStr "2"); ("phone", JStr "555")])
           1%nat (customer 2 "B")); try reflexivity.
  intros [|j] y Hj Hy; [|lia]. injection Hy as <-. vm_compute. discriminate.
Defined.

(** What an update does to the ids, success or not. *)
Lemma put_ids (customerExamples : list Customer) (req : Req)
    (t_gen t_edit : string) :
  map id (store (put_customers customerExamples req t_gen t_edit))
  = map id customerExamples.
Proof.
  unfold put_customers.
  destruct (result (changeOrDelete customerExamples req true t_gen t_edit))
    as [c|e] eqn:Hres.
  - destruct (changeOrDelete_ok_inv _ _ _ _ _ _ Hres)
      as (i & old & b & o & v & Hb & Hsrc & Hx & Hl & _ & Hv & Hc & ->).
    cbn [store]. change (map id) with (fmap (M:=list) id).
    rewrite list_fmap_insert. apply list_insert_id.
    rewrite list_lookup_fmap, Hl. simpl. f_equal.
    subst c v. cbn [set_lastupdate customer_of id].
    rewrite prop_insert_eq, Hx. symmetry. apply parseFloat_str_toString.
  - rewrite (changeOrDelete_raise_unchanged _ _ _ _ _ _ Hres). reflexivity.
Qed.

Lemma put_never_changes_ids_length (customerExamples : list Customer)
    (req : Req) (t_gen t_edit : string) :
  length (store (put_customers customerExamples req t_gen t_edit))
  = length customerExamples.
Proof.
  rewrite <- (length_map id), put_ids. apply length_map.
Qed.

(** X5.  No update, successful or refused, changes the ids of the Store:
    the same ids stand at the same positions afterwards. *)
Theorem put_never_changes_ids (customerExamples : list Customer) (req : Req)
    (t_gen t_edit : string) :
  map id (store (put_customers customerExamples req t_gen t_edit))
  = map id customerExamples /\
  length (store (put_customers customerExamples req t_gen t_edit))
  = length customerExamples.
Proof.
  pose proof (put_ids customerExamples req t_gen t_edit) as H.
  split; [exact H|].
  rewrite <- (length_map id), H. apply length_map.
Qed.

(** X6.  A delete that succeeds had a text id in its query, removes the
    first record whose id reads that text (no record before it does) and
    no other, and sends a record stamped with the time of the delete.
    The record sent is read off the body: it takes its id from the body
    when the body has a truthy one, and from the query only otherwise. *)
Theorem delete_success_removes_one (customerExamples : list Customer)
    (req : Req) (t_gen t_edit : string) (c : Customer) :
  result (delete_customers customerExamples req t_gen t_edit) = Ok c ->
  exists (i : nat) (old : Customer) (b q : Obj),
    body req = Some b /\ query req = Some q /\
    prop q "id" = JStr (toString (id old)) /\
    customerExamples !! i = Some old /\
    (forall (j : nat) (y : Customer),
       (j < i)%nat -> customerExamples !! j = Some y ->
       toString (id y) <> toString (id old)) /\
    store (delete_customers customerExamples req t_gen t_edit)
      = delete i customerExamples /\
    S (length (store (delete_customers customerExamples req t_gen t_edit)))
      = length customerExamples /\
    lastupdate c = JStr t_edit /\
    id c = parseFloat (js_or (prop b "id") (prop q "id")) /\
    (truthy (prop b "id") = false -> id c = id old).
Proof.
  unfold delete_customers. intros Hres.
  destruct (changeOrDelete_ok_inv _ _ _ _ _ _ Hres)
    as (i & old & b & q & v & Hb & Hsrc & Hx & Hl & Hfirst & Hv & Hc & ->).
  pose proof (lookup_lt_Some _ _ _ Hl) as Hi.
  exists i, old, b, q. cbn [store].
  split_and!; try assumption; try reflexivity.
  - rewrite length_delete by eauto. lia.
  - subst c. reflexivity.
  - subst c v. cbn [set_lastupdate customer_of id].
    rewrite prop_insert_eq. reflexivity.
  - intros Hfalsy. subst c v. cbn [set_lastupdate customer_of id].
    rewrite prop_insert_eq, (js_or_falsy _ _ Hfalsy), Hx.
    apply parseFloat_str_toString.
Qed.

Lemma delete_success_removes_one_witness :
  exists (i : nat) (old : Customer) (b q : Obj),
    body (request_of [("id", JStr "7")] [("id", JStr "2")]) = Some b /\
    query (request_of [("id", JStr "7")] [("id", JStr "2")]) = Some q /\
    prop q "id" = JStr (toString (id old)) /\
    [customer 1 "A"; customer 2 "B"; customer 2 "C"] !! i = Some old /\
    (forall (j : nat) (y : Customer),
       (j < i)%nat ->
       [customer 1 "A"; customer 2 "B"; customer 2 "C"] !! j = Some y ->
       toString (id y) <> toString (id old)) /\
    store (delete_customers [customer 1 "A"; customer 2 "B"; customer 2 "C"]
             (request_of [("id", JStr "7")] [("id", JStr "2")]) t1 t2)
      = delete i [customer 1 "A"; customer 2 "B"; customer 2 "C"] /\
    S (length (store (delete_customers
                        [customer 1 "A"; customer 2 "B"; customer 2 "C"]
                        (request_of [("id", JStr "7")] [("id", JStr "2")])
                        t1 t2)))
      = length [customer 1 "A"; customer 2 "B"; customer 2 "C"] /\
    lastupdate (set_lastupdate
                  (customer_of (list_to_map [("id", JStr "7")]) t1) t2)
      = JStr t2 /\
    id (set_lastupdate (customer_of (list_to_map [("id", JStr "7")]) t1) t2)
      = parseFloat (js_or (prop b "id") (prop q "id")) /\
    (truthy (prop b "id") = false ->
     id (set_lastupdate (customer_of (list_to_map [("id", JStr "7")]) t1) t2)
       = id old).
Proof.
  exact (delete_success_removes_one
           [customer 1 "A"; customer 2 "B"; customer 2 "C"]
           (request_of [("id", JStr "7")] [("id", JStr "2")]) t1 t2
           _ eq_refl).
Defined.

(** On that Store it is the first of the two records with id 2 that
    goes. *)
Example delete_removes_first_duplicate :
  store (delete_customers [customer 1 "A"; customer 2 "B"; customer 2 "C"]
           (request_of [] [("id", JStr "2")]) t1 t2)
  = [customer 1 "A"; customer 2 "C"].
Proof. reflexivity. Qed.

(** The edge of X6 on an input: [DELETE /customers?id=1] with the body
    [{id: "7"}] removes the record with id 1 and sends one with id 7. *)
Example delete_sends_body_id :
  let o := delete_customers [customer 1 "A"; customer 2 "B"]
             (request_of [("id", JStr "7")] [("id", JStr "1")]) t1 t2 in
  store o = [customer 2 "B"] /\ id <$> result_value o = Some (Fin 7).
Proof. split; reflexivity. Qed.

(** X7.  Neither an update nor a delete, successful or refused, can make
    two records share an id: pairwise distinct ids stay pairwise
    distinct. *)
Theorem changeOrDelete_keeps_ids_distinct (customerExamples : list Customer)
    (req : Req) (update : bool) (t_gen t_edit : string) :
  NoDup (map id customerExamples) ->
  NoDup (map id (store (changeOrDelete customerExamples req update
                          t_gen t_edit))).
Proof.
  intros Hnd. destruct update.
  - change (changeOrDelete customerExamples req true t_gen t_edit)
      with (put_customers customerExamples req t_gen t_edit).
    rewrite put_ids. exact Hnd.
  - destruct (result (changeOrDelete customerExamples req false t_gen t_edit))
      as [c|e] eqn:Hres.
    + destruct (changeOrDelete_ok_inv _ _ _ _ _ _ Hres)
        as (i & old & b & o & v & _ & _ & _ & _ & _ & _ & _ & ->).
      cbn [store]. change (map id) with (fmap (M:=list) id).
      rewrite list_fmap_delete.
      exact (sublist_NoDup _ _ Hnd (sublist_delete _ _)).
    + rewrite (changeOrDelete_raise_unchanged _ _ _ _ _ _ Hres). exact Hnd.
Qed.

Lemma changeOrDelete_keeps_ids_distinct_witness :
  NoDup (map id (store (changeOrDelete
                          [customer 1 "A"; customer 2 "B"; customer 3 "C"]
                          (request_of [] [("id", JStr "2")]) false t1 t2))).
Proof.
  apply (changeOrDelete_keeps_ids_distinct
           [customer 1 "A"; customer 2 "B"; customer 3 "C"]
           (request_of [] [("id", JStr "2")]) false t1 t2).
  apply (bool_decide_unpack _). vm_compute. exact I.
Defined.

(** The id a create computes is the id of no record, when the ids of
    the Store are safe integers. *)
Lemma create_id_fresh (customerExamples : list Customer) (y : Customer) :
  Forall (fun c => is_safe_integer (id c) = true) customerExamples ->
  y ∈ customerExamples ->
  id y <> num_add (math_max (map id customerExamples)) (Fin 1).
Proof.
  intros Hsafe Hy.
  assert (Hfin : Forall (fun x => is_finite x = true) (map id customerExamples)).
  { apply Forall_fmap. eapply Forall_impl; [exact Hsafe|].
    intros c Hc. apply safe_integer_finite. exact Hc. }
  assert (Hne : map id customerExamples <> []).
  { destruct customerExamples; [inversion Hy | discriminate]. }
  destruct (math_max_finite _ Hne Hfin) as (m & -> & _ & Hall).
  destruct (Hall (id y)) as (z & Hz & Hle).
  { apply list_elem_of_fmap. eauto. }
  rewrite Hz. simpl. intros [= ->]. lia.
Qed.

(** X8.  A create on a Store whose ids are pairwise distinct safe
    integers (the empty Store included) leaves pairwise distinct ids,
    whether it succeeds or raises. *)
Theorem post_keeps_ids_distinct (customerExamples : list Customer)
    (req : Req) (now : string) :
  NoDup (map id customerExamples) ->
  Forall (fun c => is_safe_integer (id c) = true) customerExamples ->
  NoDup (map id (store (post_customers customerExamples req now))).
Proof.
  intros Hnd Hsafe.
  destruct (body req) as [b|] eqn:Hb.
  - unfold post_customers. rewrite (generate_create _ _ _ _ Hb).
    cbn zeta. cbn [result store request].
    rewrite map_app. cbn [map]. rewrite generate_create_id.
    apply NoDup_app. split_and!.
    + exact Hnd.
    + intros n Hn Hin. apply list_elem_of_singleton in Hin.
      apply list_elem_of_fmap in Hn as (y & -> & Hy).
      exact (create_id_fresh _ _ Hsafe Hy Hin).
    + apply NoDup_singleton.
  - unfold post_customers, generate. rewrite Hb. exact Hnd.
Qed.

Lemma post_keeps_ids_distinct_witness :
  NoDup (map id (store (post_customers [customer 1 "A"; customer 5 "E"]
                          (request_of [("name", JStr "B")] []) t1))).
Proof.
  apply (post_keeps_ids_distinct [customer 1 "A"; customer 5 "E"]
           (request_of [("name", JStr "B")] []) t1).
  - apply (bool_decide_unpack _). vm_compute. exact I.
  - repeat constructor.
Defined.

(** ** The locator on text ids, and on anything else *)

(** X9.  For a source whose id is a text, [validate] answers -1 exactly
    when no record's id reads that text, and otherwise the position of
    the first record whose id does (of the first one, should several
    records share the id). *)
Theorem validate_text_id_first_match (customerExamples : list Customer)
    (req : Req) (type : SourceKey) (o : Obj) (x : string) :
  source req type = Some o -> prop o "id" = JStr x ->
  (validate customerExamples req type = -1 /\
   forall y, y ∈ customerExamples -> toString (id y) <> x)
  \/
  (exists (i : nat) (c : Customer),
     validate customerExamples req type = Z.of_nat i /\
     customerExamples !! i = Some c /\ toString (id c) = x /\
     forall (j : nat) (y : Customer),
       (j < i)%nat -> customerExamples !! j = Some y -> toString (id y) <> x).
Proof.
  intros Hsrc Hid.
  destruct (decide (validate customerExamples req type = -1)) as [Heq|Hne].
  - left. split; [exact Heq|].
    intros y Hy Hyx. apply list_elem_of_lookup in Hy as (k & Hk).
    revert y Hk Hyx. induction (lt_wf k) as [k _ IH]. intros y Hk Hyx.
    assert (Hfirst : forall (j : nat) (y' : Customer), (j < k)%nat ->
              customerExamples !! j = Some y' -> toString (id y') <> x).
    { intros j y' Hj Hl' Hx'. exact (IH j Hj y' Hl' Hx'). }
    pose proof (validate_found _ _ _ _ _ _ _ Hsrc Hid Hk Hyx Hfirst). lia.
  - right. destruct (validate_inv _ _ _ Hne)
      as (o' & x' & i & c & Ho & Hx & Hv & Hl & Hc & Hfirst).
    rewrite Hsrc in Ho. injection Ho as <-. rewrite Hid in Hx.
    injection Hx as <-. eauto 10.
Qed.

Lemma validate_text_id_first_match_witness :
  (validate [customer 1 "A"; customer 2 "B"; customer 2 "C"]
     (request_of [] [("id", JStr "2")]) SrcQuery = -1 /\
   forall y, y ∈ [customer 1 "A"; customer 2 "B"; customer 2 "C"] ->
             toString (id y) <> "2")
  \/
  (exists (i : nat) (c : Customer),
     validate [customer 1 "A"; customer 2 "B"; customer 2 "C"]
       (request_of [] [("id", JStr "2")]) SrcQuery = Z.of_nat i /\
     [customer 1 "A"; customer 2 "B"; customer 2 "C"] !! i = Some c /\
     toString (id c) = "2" /\
     forall (j : nat) (y : Customer),
       (j < i)%nat ->
       [customer 1 "A"; customer 2 "B"; customer 2 "C"] !! j = Some y ->
       toString (id y) <> "2").
Proof.
  exact (validate_text_id_first_match
           [customer 1 "A"; customer 2 "B"; customer 2 "C"]
           (request_of [] [("id", JStr "2")]) SrcQuery _ "2"
           eq_refl eq_refl).
Defined.

Example validate_first_of_duplicates :
  validate [customer 1 "A"; customer 2 "B"; customer 2 "C"]
    (request_of [] [("id", JStr "2")]) SrcQuery = 1.
Proof. reflexivity. Qed.

Lemma filter_all_false {A} (p : A -> bool) (l : list A) :
  (forall y, p y = false) -> List.filter p l = [].
Proof.
  intros Hp. induction l as [|y r IH]; [reflexivity|].
  simpl. rewrite Hp. exact IH.
Qed.

(** X10.  An update or delete whose source is there but holds, as id,
    anything other than a text (a number, a boolean, [null], an array or
    an object, or no id at all) is refused with [RecordNotFound]
    whatever the Store holds, and changes neither the Store nor the
    request. *)
Theorem changeOrDelete_non_text_id (customerExamples : list Customer)
    (req : Req) (update : bool) (t_gen t_edit : string) (o : Obj) :
  source req (if update then SrcBody else SrcQuery) = Some o ->
  (forall x : string, prop o "id" <> JStr x) ->
  changeOrDelete customerExamples req update t_gen t_edit =
    {| result := Raise RecordNotFound;
       store := customerExamples; request := req |}.
Proof.
  intros Hsrc Hid. unfold changeOrDelete.
  rewrite changeOrDelete_guard, Hsrc, bool_decide_eq_true_2 by eauto.
  assert (Hv : validate customerExamples req
                 (if update then SrcBody else SrcQuery) = -1).
  { unfold validate. rewrite Hsrc.
    destruct (truthy (prop o "id")); [|reflexivity]. cbn [negb].
    rewrite filter_all_false; [reflexivity|].
    intros y. destruct (prop o "id") as [| | | |x|]; try reflexivity.
    exfalso. exact (Hid x eq_refl). }
  rewrite Hv. reflexivity.
Qed.

Lemma changeOrDelete_non_text_id_witness :
  changeOrDelete [customer 1 "A"; customer 2 "B"]
    (request_of [("id", JNum (Fin 2)); ("name", JStr "Z")] []) true t1 t2 =
    {| result := Raise RecordNotFound;
       store := [customer 1 "A"; customer 2 "B"];
       request := request_of [("id", JNum (Fin 2)); ("name", JStr "Z")] [] |}.
Proof.
  apply (changeOrDelete_non_text_id [customer 1 "A"; customer 2 "B"]
           (request_of [("id", JNum (Fin 2)); ("name", JStr "Z")] [])
           true t1 t2
           (list_to_map [("id", JNum (Fin 2)); ("name", JStr "Z")])).
  - reflexivity.
  - intros x. vm_compute. discriminate.
Defined.

(** ** A create, then the locator and a delete *)



(** ** Running the factory again *)

(** X12.  [generate] writes the request once: called again on the
    request it left (same Store, same flag, same time), it returns the
    same record and leaves the request as it found it. *)
Theorem generate_again_same (customerExamples : list Customer) (req : Req)
    (keepID : bool) (now : string) (c : Customer) :
  result (generate customerExamples req keepID now) = Ok c ->
  generate customerExamples
    (request (generate customerExamples req keepID now)) keepID now
  = generate customerExamples req keepID now.
Proof.
  unfold generate. destruct (body req) as [b|] eqn:Hb; [|discriminate].
  destruct keepID; cbn [negb].
  - destruct (truthy (prop b "id")) eqn:Ht.
    + cbn [result request set_body_id body query]. intros _.
      rewrite prop_insert_eq, Ht. unfold set_body_id. cbn [query].
      rewrite insert_insert_eq. reflexivity.
    + destruct (query req) as [q|] eqn:Hq; [|discriminate].
      cbn [fmap option_fmap option_map result request set_body_id body query].
      intros _. rewrite prop_insert_eq, Hq.
      cbn [fmap option_fmap option_map].
      unfold set_body_id. cbn [query].
      destruct (truthy (prop q "id")); rewrite insert_insert_eq; reflexivity.
  - cbn [result request set_body_id body query]. intros _.
    unfold set_body_id. cbn [query].
    rewrite insert_insert_eq. reflexivity.
Qed.

Lemma generate_again_same_witness :
  generate [customer 1 "A"]
    (request (generate [customer 1 "A"]
                (request_of [("name", JStr "B")] [("id", JStr "1")]) true t1))
    true t1
  = generate [customer 1 "A"]
      (request_of [("name", JStr "B")] [("id", JStr "1")]) true t1.
Proof.
  exact (generate_again_same [customer 1 "A"]
           (request_of [("name", JStr "B")] [("id", JStr "1")]) true t1
           _ eq_refl).
Defined.

(** ** Updates and the locator *)

(** The locator looks at the ids only. *)
Lemma validate_ids_ext (s1 s2 : list Customer) (req : Req) (type : SourceKey) :
  map id s1 = map id s2 -> validate s1 req type = validate s2 req type.
Proof.
  assert (Hdir : forall a b : list Customer, map id a = map id b ->
            validate a req type <> -1 ->
            validate b req type = validate a req type).
  { intros a b Hab Hne.
    destruct (validate_inv _ _ _ Hne)
      as (o & x & i & c & Ho & Hx & -> & Hl & Hc & Hfirst).
    assert (Hlook : forall (j : nat),
              id <$> (b !! j) = id <$> (a !! j)).
    { intros j. rewrite <- !list_lookup_fmap.
      change (fmap (M:=list) id) with (map id). rewrite Hab. reflexivity. }
    pose proof (Hlook i) as Hi. rewrite Hl in Hi.
    destruct (b !! i) as [c'|] eqn:Hl'; [|discriminate].
    injection Hi as Hi.
    apply (validate_found b req type o x i c' Ho Hx Hl').
    - rewrite Hi. exact Hc.
    - intros j y Hj Hy Hyx. pose proof (Hlook j) as Hjj. rewrite Hy in Hjj.
      destruct (a !! j) as [y'|] eqn:Ha; [|discriminate].
      injection Hjj as Hjj. apply (Hfirst j y' Hj Ha). congruence. }
  intros Heq.
  destruct (decide (validate s1 req type = -1)) as [H1|H1].
  - destruct (decide (validate s2 req type = -1)) as [H2|H2]; [congruence|].
    rewrite (Hdir s2 s1 (eq_sym Heq) H2). reflexivity.
  - symmetry. exact (Hdir s1 s2 Heq H1).
Qed.

(** X13.  An update never moves a record out of the locator's reach:
    after any update, successful or refused, the locator answers every
    request exactly as it did before. *)
Theorem put_keeps_locator (customerExamples : list Customer) (req req' : Req)
    (t_gen t_edit : string) (type : SourceKey) :
  validate (store (put_customers customerExamples req t_gen t_edit)) req' type
  = validate customerExamples req' type.
Proof. apply validate_ids_ext, put_ids. Qed.

(** ** The application: statuses and the size of the Store *)

Lemma respond_status_200 {A} (txt : string) (wrap : A -> Payload)
    (o : Outcome A) :
  status (respond txt wrap o) = 200 <-> exists a, result o = Ok a.
Proof.
  unfold respond. destruct (result o) as [a|e]; simpl.
  - split; eauto.
  - split; [destruct e; discriminate | intros [a [=]]].
Qed.

(** X15.  Whatever the route and the request, an answer other than 200
    leaves the Store exactly as it was: nothing is committed before an
    error. *)
Theorem app_failure_leaves_store (route : Route)
    (customerExamples : list Customer) (req : Req)
    (t_gen t_edit type_error_text : string) :
  status (app route customerExamples req t_gen t_edit type_error_text).1
    <> 200 ->
  (app route customerExamples req t_gen t_edit type_error_text).2
    = customerExamples.
Proof.
  destruct route; cbn [app fst snd]; intros Hst; try reflexivity.
  - apply get_store_unchanged.
  - destruct (result (post_customers customerExamples req t_gen))
      as [c|e] eqn:Hres.
    + exfalso. apply Hst. apply respond_status_200. eauto.
    + rewrite (post_raise_unchanged _ _ _ _ Hres). reflexivity.
  - unfold put_customers in *.
    destruct (result (changeOrDelete customerExamples req true t_gen t_edit))
      as [c|e] eqn:Hres.
    + exfalso. apply Hst. apply respond_status_200. eauto.
    + rewrite (changeOrDelete_raise_unchanged _ _ _ _ _ _ Hres). reflexivity.
  - unfold delete_customers in *.
    destruct (result (changeOrDelete customerExamples req false t_gen t_edit))
      as [c|e] eqn:Hres.
    + exfalso. apply Hst. apply respond_status_200. eauto.
    + rewrite (changeOrDelete_raise_unchanged _ _ _ _ _ _ Hres). reflexivity.
Qed.

Lemma app_failure_leaves_store_witness :
  (app DeleteCustomers [customer 1 "A"; customer 2 "B"]
     {| body := None; query := Some {[ "id" := JStr "2" ]} |}
     t1 t2 "TypeError").2
  = [customer 1 "A"; customer 2 "B"].
Proof.
  apply (app_failure_leaves_store DeleteCustomers
           [customer 1 "A"; customer 2 "B"]
           {| body := None; query := Some {[ "id" := JStr "2" ]} |}
           t1 t2 "TypeError").
  vm_compute. discriminate.
Defined.

(** X16.  The size of the Store after a request: one more after a create
    that answers 200, one less after a delete that answers 200, and the
    same in every other case. *)
Theorem app_store_length (route : Route) (customerExamples : list Customer)
    (req : Req) (t_gen t_edit type_error_text : string) :
  let r := app route customerExamples req t_gen t_edit type_error_text in
  length r.2 =
  match route with
  | PostCustomers =>
      if status r.1 =? 200 then S (length customerExamples)
      else length customerExamples
  | DeleteCustomers =>
      if status r.1 =? 200 then (length customerExamples - 1)%nat
      else length customerExamples
  | _ => length customerExamples
  end.
Proof.
  intros r. subst r.
  destruct route; cbn [app fst snd]; try reflexivity.
  - f_equal. apply get_store_unchanged.
  - unfold respond.
    destruct (result (post_customers customerExamples req t_gen))
      as [c|e] eqn:Hres.
    + cbn [status]. change (200 =? 200) with true. cbv iota.
      revert Hres. unfold post_customers, generate.
      destruct (body req) as [b|]; cbn [negb result store]; [|discriminate].
      intros _. rewrite length_app. simpl. lia.
    + rewrite (post_raise_unchanged _ _ _ _ Hres). cbn [store].
      destruct e; reflexivity.
  - apply put_never_changes_ids_length.
  - unfold respond, delete_customers.
    destruct (result (changeOrDelete customerExamples req false t_gen t_edit))
      as [c|e] eqn:Hres.
    + cbn [status]. change (200 =? 200) with true. cbv iota.
      destruct (changeOrDelete_ok_inv _ _ _ _ _ _ Hres)
        as (i & old & b & o & v & _ & _ & _ & Hl & _ & _ & _ & ->).
      cbn [store]. apply length_delete. eauto.
    + rewrite (changeOrDelete_raise_unchanged _ _ _ _ _ _ Hres). cbn [store].
      destruct e; reflexivity.
Qed.

(** X17.  The update handler raises no error of the runtime: whatever
    the request it is given, it sends a record, or throws ['Body was not
    sent!'] (no body) or ['ID was not found!'], so that the error handler
    answers its failures with 400.  By the time [generate] reads and
    writes the body, the guard has found the body and [validate] has
    found a text in its id. *)
Theorem put_raises_only_its_texts (customerExamples : list Customer)
    (req : Req) (t_gen t_edit type_error_text : string) :
  ((exists c, result (put_customers customerExamples req t_gen t_edit) = Ok c)
   \/ result (put_customers customerExamples req t_gen t_edit)
       = Raise MissingInput
   \/ result (put_customers customerExamples req t_gen t_edit)
       = Raise RecordNotFound) /\
  (status (respond type_error_text OneCustomer
             (put_customers customerExamples req t_gen t_edit)) = 200 \/
   status (respond type_error_text OneCustomer
             (put_customers customerExamples req t_gen t_edit)) = 400).
Proof.
  assert (H : (exists c, result (put_customers customerExamples req
                                   t_gen t_edit) = Ok c)
              \/ result (put_customers customerExamples req t_gen t_edit)
                  = Raise MissingInput
              \/ result (put_customers customerExamples req t_gen t_edit)
                  = Raise RecordNotFound).
  { unfold put_customers, changeOrDelete. rewrite changeOrDelete_guard.
    cbn [source].
    destruct (body req) as [b|] eqn:Hb.
    - rewrite bool_decide_eq_true_2 by eauto.
      destruct (Z.eqb_spec (validate customerExamples req SrcBody) (-1))
        as [|Hne]; [right; right; reflexivity|].
      destruct (validate_inv _ _ _ Hne)
        as (o & x & i & c & Ho & Hx & _ & _ & Hc & _).
      cbn [source] in Ho. rewrite Hb in Ho. injection Ho as <-.
      unfold generate. rewrite Hb. cbn [negb].
      assert (Ht : truthy (prop b "id") = true).
      { rewrite Hx. apply truthy_JStr. rewrite <- Hc. apply toString_nonempty. }
      rewrite Ht. left. eexists. reflexivity.
    - rewrite bool_decide_eq_false_2 by (intros [? [=]]).
      right; left; reflexivity. }
  split; [exact H|].
  unfold respond. destruct H as [[c ->]|[->| ->]];
    [left | right | right]; reflexivity.
Qed.

(** A delete, in contrast, is answered with 500 when the request has no
    body object and its query names a record. *)
Example delete_without_body_500 :
  app DeleteCustomers [customer 1 "A"]
    {| body := None; query := Some {[ "id" := JStr "1" ]} |} t1 t2 "TypeError"
  = ({| status := 500; sent := Message "An error occurred! - TypeError" |},
     [customer 1 "A"]).
Proof. reflexivity. Qed.
